(** * Asteroid: the Model-View-Controller game loop of asteroid01.py

    A shallow embedding of [src/asteroid01.py] and the properties of its
    state transition, rendering and frame pacing.

    Conventions of the embedding.
    - Python objects that are mutated through [self] become records that the
      embedded method takes and returns.
    - Python floats (the results of [time.time()] and the arithmetic on
      them) are exact rationals [Q]; rounding of binary floating point is
      not modelled.  [1/20] is true division (Python 3).
    - The outside world ([time.time], [time.sleep] and the [graphics]
      window) is the record [World]: what the clock and the input devices
      will answer is given as streams indexed by the number of calls made so
      far, what the program does to the world is appended to a trace.
      The trace records the window's opening and closing, its background,
      the drawing of an item, the waits for a click and the sleeps; it
      does not record the polls nor [setText] on a label, whose effect is
      the text that the view holds.
    - A Python exception is the outcome [Raise]; the [while] loop of
      [Controller.run] takes fuel and ends in [NoFuel] when it is used up. *)

From Stdlib Require Import ZArith QArith Bool List String Lia Lqa.
From Stdlib Require Import DecimalString DecimalPos DecimalZ.
Import ListNotations.

Local Open Scope Q_scope.
Local Open Scope string_scope.

(** ** Python values that the program handles *)

(** [grf.Point]: the location of a click. *)
Record Point : Type := mkPoint { px : Q; py : Q }.

(** [x < y] on numbers. *)
Definition Qltb (x y : Q) : bool := negb (Qle_bool y x).

(** [int(x)] of a number: the fractional part is dropped, towards zero. *)
Definition py_int (x : Q) : Z := Z.quot (Qnum x) (Zpos (Qden x)).

(** ['{}'.format(n)] of an [int]: decimal digits, a leading [-] if negative. *)
Definition format_int (n : Z) : string := NilZero.string_of_int (Z.to_int n).

(** ['{}'.format(b)] of a [bool]. *)
Definition format_bool (b : bool) : string := if b then "True" else "False".

(** [key == 'a']: [key] is [None] or a [str]. *)
Definition key_is_a (key : option string) : bool :=
  match key with
  | Some s => String.eqb s "a"
  | None => false
  end.

(** ** Model *)

(** The dict [{'time': ..., 'done': ...}] that the model hands to the view.
    It is only ever built with these two keys. *)
Record Observables : Type := mkObservables {
  obs_time : Q;
  obs_done : bool
}.

Module Model.

Record t : Type := mk {
  width : Z;
  height : Z;
  time : Q;
  done : bool;
  observables : Observables
}.

(** [Model.__init__] *)
Definition init : t :=
  {| width := 1200;
     height := 800;
     time := 0;
     done := false;
     observables := {| obs_time := 0; obs_done := false |} |}.

(** [Model.set_time] *)
Definition set_time (self : t) (new_time : Q) : t :=
  {| width := width self;
     height := height self;
     time := new_time;
     done := done self;
     observables := observables self |}.

(** [Model.update_observables] *)
Definition update_observables (self : t) : t :=
  {| width := width self;
     height := height self;
     time := time self;
     done := done self;
     observables := {| obs_time := time self; obs_done := done self |} |}.

(** The assignment [self.done = True]. *)
Definition set_done (self : t) : t :=
  {| width := width self;
     height := height self;
     time := time self;
     done := true;
     observables := observables self |}.

(** [Model.update]: the pair of the value of [return self.done] and the
    model after the call. *)
Definition update (self : t) (click : option Point) (key : option string)
  : bool * t :=
  let self1 := if key_is_a key then set_done self else self in
  let self2 := update_observables self1 in
  (done self2, self2).

End Model.

(** ** The world outside the program *)

(** What the program does to the world, in the order it does it. *)
Inductive Event : Type :=
| OpenWindow (title : string) (w h : Z)   (* grf.GraphWin(title, w, h) *)
| SetBackground (color : string)          (* win.setBackground(color)  *)
| DrawText (text : string)                (* Text.draw(win)            *)
| GetMouse                                (* win.getMouse() returned   *)
| Sleep (seconds : Q)                     (* time.sleep(seconds)       *)
| Close.                                  (* win.close()               *)

Record World : Type := mkWorld {
  clock : nat -> Q;                (* the i-th answer of time.time()     *)
  clock_reads : nat;               (* calls of time.time() made so far   *)
  mouse : nat -> option Point;     (* the i-th answer of win.checkMouse() *)
  mouse_polls : nat;
  keys : nat -> option string;     (* the i-th answer of win.checkKey()  *)
  key_polls : nat;
  trace : list Event
}.

Inductive pyexn : Type := TypeError | ValueError.

Inductive outcome (A : Type) : Type :=
| Ret (a : A) (w : World)      (* returned [a], the world is now [w] *)
| Raise (e : pyexn)            (* an exception left the call         *)
| NoFuel.                      (* the loop was cut off               *)

Arguments Ret {A} a w.
Arguments Raise {A} e.
Arguments NoFuel {A}.

(** A computation that acts on the world. *)
Definition M (A : Type) : Type := World -> outcome A.

Definition ret {A : Type} (a : A) : M A := fun w => Ret a w.

Definition raise {A : Type} (e : pyexn) : M A := fun _ => Raise e.

Definition bind {A B : Type} (m : M A) (k : A -> M B) : M B :=
  fun w =>
    match m w with
    | Ret a w' => k a w'
    | Raise e => Raise e
    | NoFuel => NoFuel
    end.

Notation "x <- m ;; k" := (bind m (fun x => k))
  (at level 61, m at next level, right associativity).
Notation "m ;; k" := (bind m (fun _ => k))
  (at level 61, right associativity).

(** Appends an event to the trace. *)
Definition emit (e : Event) : M unit :=
  fun w =>
    Ret tt {| clock := clock w; clock_reads := clock_reads w;
              mouse := mouse w; mouse_polls := mouse_polls w;
              keys := keys w; key_polls := key_polls w;
              trace := trace w ++ [e] |}.

(** [time.time()] *)
Definition time_time : M Q :=
  fun w =>
    Ret (clock w (clock_reads w))
        {| clock := clock w; clock_reads := S (clock_reads w);
           mouse := mouse w; mouse_polls := mouse_polls w;
           keys := keys w; key_polls := key_polls w;
           trace := trace w |}.

(** [time.sleep(seconds)]: a negative length is a [ValueError]. *)
Definition time_sleep (seconds : Q) : M unit :=
  if Qltb seconds 0 then raise ValueError else emit (Sleep seconds).

(** [win.checkMouse()] *)
Definition checkMouse : M (option Point) :=
  fun w =>
    Ret (mouse w (mouse_polls w))
        {| clock := clock w; clock_reads := clock_reads w;
           mouse := mouse w; mouse_polls := S (mouse_polls w);
           keys := keys w; key_polls := key_polls w;
           trace := trace w |}.

(** [win.checkKey()] *)
Definition checkKey : M (option string) :=
  fun w =>
    Ret (keys w (key_polls w))
        {| clock := clock w; clock_reads := clock_reads w;
           mouse := mouse w; mouse_polls := mouse_polls w;
           keys := keys w; key_polls := S (key_polls w);
           trace := trace w |}.

(** [win.getMouse()]: returns once the user has clicked; the program never
    looks at the point. *)
Definition getMouse : M unit := emit GetMouse.

(** ** View *)

Module View.

Record t : Type := mk {
  time_text : string;               (* the text of the label time_text *)
  done_text : string;               (* the text of the label done_text *)
  observed : option Observables     (* None, or the dict last received *)
}.

(** [View.__init__] *)
Definition init (width height : Z) : M t :=
  emit (OpenWindow "Asteroid" width height) ;;
  ret {| time_text := "Time: 0";
         done_text := "Done: False";
         observed := None |}.

(** [View.initialize] *)
Definition initialize (self : t) : M unit :=
  emit (SetBackground "white") ;;
  emit (DrawText (time_text self)) ;;
  emit (DrawText (done_text self)).

(** [View.draw_done]; subscripting [None] is a [TypeError]. *)
Definition draw_done (self : t) : M t :=
  match observed self with
  | None => raise TypeError
  | Some o =>
      ret {| time_text := time_text self;
             done_text := "Done: " ++ format_bool (obs_done o);
             observed := observed self |}
  end.

(** [View.draw_time] *)
Definition draw_time (self : t) : M t :=
  match observed self with
  | None => raise TypeError
  | Some o =>
      ret {| time_text := "Time: " ++ format_int (py_int (obs_time o));
             done_text := done_text self;
             observed := observed self |}
  end.

(** The assignment [self.observed = observables]. *)
Definition set_observed (self : t) (o : Observables) : t :=
  {| time_text := time_text self;
     done_text := done_text self;
     observed := Some o |}.

(** [View.update] *)
Definition update (self : t) (o : Observables) : M t :=
  let self1 := set_observed self o in
  self2 <- draw_time self1 ;;
  draw_done self2.

End View.

(** ** Controller *)

Module Controller.

Record t : Type := mk {
  model : Model.t;
  view : View.t;
  done : bool;
  click : option Point;
  key : option string;
  framerate : Q;
  start_time : Q
}.

(** [Controller.__init__] *)
Definition init : M t :=
  let m := Model.init in
  v <- View.init (Model.width m) (Model.height m) ;;
  ret {| model := m;
         view := v;
         done := false;
         click := None;
         key := None;
         framerate := 1 / 20;
         start_time := 0 |}.

(** The assignments to one attribute of [self]. *)
Definition set_model (self : t) (m : Model.t) : t :=
  {| model := m; view := view self; done := done self;
     click := click self; key := key self;
     framerate := framerate self; start_time := start_time self |}.

Definition set_view (self : t) (v : View.t) : t :=
  {| model := model self; view := v; done := done self;
     click := click self; key := key self;
     framerate := framerate self; start_time := start_time self |}.

Definition set_done (self : t) (d : bool) : t :=
  {| model := model self; view := view self; done := d;
     click := click self; key := key self;
     framerate := framerate self; start_time := start_time self |}.

Definition set_input (self : t) (c : option Point) (k : option string) : t :=
  {| model := model self; view := view self; done := done self;
     click := c; key := k;
     framerate := framerate self; start_time := start_time self |}.

Definition set_start_time (self : t) (s : Q) : t :=
  {| model := model self; view := view self; done := done self;
     click := click self; key := key self;
     framerate := framerate self; start_time := s |}.

(** [Controller.check_user_input] *)
Definition check_user_input (self : t) : M t :=
  c <- checkMouse ;;
  k <- checkKey ;;
  ret (set_input self c k).

(** [Controller.update_time] *)
Definition update_time (self : t) (loop_start : Q) : M t :=
  loop_end <- time_time ;;
  let execute_time := loop_end - loop_start in
  (if Qltb execute_time (framerate self)
   then time_sleep (framerate self - execute_time)
   else ret tt) ;;
  now <- time_time ;;
  ret (set_model self (Model.set_time (model self) (now - start_time self))).

(** [Controller.update]: returns [done] and the controller after the call. *)
Definition update (self : t) : M (bool * t) :=
  loop_start <- time_time ;;
  self1 <- check_user_input self ;;
  let (done, m) := Model.update (model self1) (click self1) (key self1) in
  let self2 := set_model self1 m in
  v <- View.update (view self2) (Model.observables (model self2)) ;;
  let self3 := set_view self2 v in
  self4 <- update_time self3 loop_start ;;
  ret (done, self4).

(** [while not self.done: self.done = self.update()], at most [fuel]
    passes through the body. *)
Fixpoint loop (fuel : nat) (self : t) : M t :=
  if done self then ret self
  else
    match fuel with
    | O => fun _ => NoFuel
    | S fuel' =>
        r <- update self ;;
        loop fuel' (set_done (snd r) (fst r))
    end.

(** The statements of [Controller.run] before the loop. *)
Definition run_start (self : t) : M t :=
  View.initialize (view self) ;;
  getMouse ;;
  s <- time_time ;;
  ret (set_start_time self s).

(** The statements of [Controller.run] after the loop. *)
Definition run_finish (self : t) : M t :=
  getMouse ;;
  emit Close ;;
  ret self.

(** [Controller.run] *)
Definition run (fuel : nat) (self : t) : M t :=
  self1 <- run_start self ;;
  self2 <- loop fuel self1 ;;
  run_finish self2.

(** [n] calls of [Controller.update] in a row, each followed by the
    assignment of its result to [self.done]: the loop body, [n] times. *)
Fixpoint iterate (n : nat) (self : t) : M t :=
  match n with
  | O => ret self
  | S n' =>
      r <- update self ;;
      iterate n' (set_done (snd r) (fst r))
  end.

End Controller.

(** The program: [controller = Controller(); controller.run()]. *)
Definition main (fuel : nat) : M Controller.t :=
  controller <- Controller.init ;;
  Controller.run fuel controller.

(** ** A world to run examples in *)

(** The clock reads 100.00, 100.03, 100.06, ... seconds, so that a sleep of
    up to 0.03 seconds is over by the next reading; nobody clicks during
    the game; the key [a] is the answer of the fourth poll of the keyboard,
    no key is the answer of the others. *)
Definition paced_world : World :=
  {| clock := fun i => 100 + inject_Z (Z.of_nat i) * (3 # 100);
     clock_reads := 0;
     mouse := fun _ => None;
     mouse_polls := 0;
     keys := fun i => if Nat.eqb i 3 then Some "a" else Some "";
     key_polls := 0;
     trace := [] |}.

(** The controller and the world of the program in [paced_world] when the
    loop of [Controller.run] is entered: the window is open, the labels are
    drawn, the user has clicked and [start_time] is the first reading of
    the clock. *)
Definition started_controller : Controller.t :=
  {| Controller.model := Model.init;
     Controller.view := {| View.time_text := "Time: 0";
                           View.done_text := "Done: False";
                           View.observed := None |};
     Controller.done := false;
     Controller.click := None;
     Controller.key := None;
     Controller.framerate := 1 / 20;
     Controller.start_time := clock paced_world 0 |}.

Definition started_world : World :=
  {| clock := clock paced_world;
     clock_reads := 1;
     mouse := mouse paced_world;
     mouse_polls := 0;
     keys := keys paced_world;
     key_polls := 0;
     trace := [OpenWindow "Asteroid" 1200 800; SetBackground "white";
               DrawText "Time: 0"; DrawText "Done: False"; GetMouse] |}.

(** ** Vocabulary of the properties *)

(** The time in the dict that a pass of [Controller.update] hands to
    [View.update] is the time elapsed since [start_time] as that same pass
    measures it. *)
Definition renders_elapsed_of_same_pass (self : Controller.t) (w : World)
  : Prop :=
  exists (d : bool) (self' : Controller.t) (w' : World) (o : Observables),
    Controller.update self w = Ret (d, self') w' /\
    View.observed (Controller.view self') = Some o /\
    obs_time o == clock w (2 + clock_reads w) - Controller.start_time self.

(** The world [w] after [r] more readings of the clock, [m] more polls of
    the mouse, [k] more polls of the keyboard and the events [evs]. *)
Definition advance (w : World) (r m k : nat) (evs : list Event) : World :=
  {| clock := clock w; clock_reads := r + clock_reads w;
     mouse := mouse w; mouse_polls := m + mouse_polls w;
     keys := keys w; key_polls := k + key_polls w;
     trace := trace w ++ evs |}.

(** The world [w] with other answers of the mouse: the stream [f], of
    which [n] have been given. *)
Definition with_mouse (w : World) (f : nat -> option Point) (n : nat) : World :=
  {| clock := clock w; clock_reads := clock_reads w;
     mouse := f; mouse_polls := n;
     keys := keys w; key_polls := key_polls w;
     trace := trace w |}.

(** The first poll of the keyboard from now on that answers ["a"] is the
    one after [n] others. *)
Definition first_a_after (w : World) (n : nat) : Prop :=
  keys w (n + key_polls w) = Some "a" /\
  forall i : nat, (i < n)%nat -> keys w (i + key_polls w) <> Some "a".

(** The readings of the clock never go back. *)
Definition nondecreasing (f : nat -> Q) : Prop :=
  forall i j : nat, (i <= j)%nat -> f i <= f j.

(** The whole number that a string of decimal digits (after an optional
    [-]) denotes. *)
Definition parse_int (s : string) : option Z :=
  option_map Z.of_int (NilZero.int_of_string s).

(** As [paced_world], but nobody ever presses a key. *)
Definition idle_world : World :=
  {| clock := clock paced_world;
     clock_reads := 0;
     mouse := fun _ => None;
     mouse_polls := 0;
     keys := fun _ => Some "";
     key_polls := 0;
     trace := [] |}.

(** The event is a sleep of a positive length. *)
Definition positive_sleep (e : Event) : Prop :=
  exists seconds : Q, e = Sleep seconds /\ 0 < seconds.

(** The event is a sleep of a positive length, [limit] at most. *)
Definition sleep_within (limit : Q) (e : Event) : Prop :=
  exists seconds : Q, e = Sleep seconds /\ 0 < seconds /\ seconds <= limit.

(** The lengths of the sleeps among the events, in their order. *)
Fixpoint sleeps_of (evs : list Event) : list Q :=
  match evs with
  | [] => []
  | Sleep seconds :: rest => seconds :: sleeps_of rest
  | _ :: rest => sleeps_of rest
  end.

(** The time slept in the events, all sleeps together. *)
Definition slept (evs : list Event) : Q := fold_right Qplus 0 (sleeps_of evs).

(** The events that the trace of [w'] has after those of [w]. *)
Definition new_events (w w' : World) : list Event :=
  skipn (List.length (trace w)) (trace w').

(** The clock keeps up with the sleeps of [n] passes of the loop body run
    from [self] in [w]: in each of them, between the reading of the clock
    that [Controller.update_time] takes first and the one it takes last,
    the clock advances by the time that the pass slept, or by more. *)
Fixpoint clock_keeps_up (n : nat) (self : Controller.t) (w : World) : Prop :=
  match n with
  | O => True
  | S n' =>
      match Controller.update self w with
      | Ret r w' =>
          clock w (1 + clock_reads w) + slept (new_events w w')
            <= clock w (2 + clock_reads w) /\
          clock_keeps_up n' (Controller.set_done (snd r) (fst r)) w'
      | Raise _ => False
      | NoFuel => False
      end
  end.

(** One of the [n] answers of the keyboard from the [from]-th on is ["a"]. *)
Fixpoint pressed_a (ks : nat -> option string) (from n : nat) : bool :=
  match n with
  | O => false
  | S n' => key_is_a (ks from) || pressed_a ks (S from) n'
  end.

(** The controller that [Controller()] builds. *)
Definition fresh_controller : Controller.t :=
  {| Controller.model := Model.init;
     Controller.view := {| View.time_text := "Time: 0";
                           View.done_text := "Done: False";
                           View.observed := None |};
     Controller.done := false;
     Controller.click := None;
     Controller.key := None;
     Controller.framerate := 1 / 20;
     Controller.start_time := 0 |}.

(** What the program has done to the window when it enters the loop. *)
Definition opening : list Event :=
  [OpenWindow "Asteroid" 1200 800; SetBackground "white";
   DrawText "Time: 0"; DrawText "Done: False"; GetMouse].

(** The controller and the world of the program started in [w] when it
    enters the loop of [Controller.run]. *)
Definition loop_entry_controller (w : World) : Controller.t :=
  Controller.set_start_time fresh_controller (clock w (clock_reads w)).

Definition loop_entry_world (w : World) : World := advance w 1 0 0 opening.

(** Unfolds the calls of a computation down to the world it acts on. *)
Ltac run_M :=
  cbv beta iota delta
    [bind ret raise emit time_time time_sleep checkMouse checkKey getMouse
     View.init View.initialize View.draw_done View.draw_time View.update
     View.set_observed View.observed
     Controller.check_user_input Controller.update_time Controller.update
     Controller.run_start Controller.run_finish];
  cbn [clock clock_reads mouse mouse_polls keys key_polls trace].

(** * Properties *)

(** ** Numbers and strings *)

Lemma Qltb_true_iff (x y : Q) : Qltb x y = true <-> x < y.
Proof.
  unfold Qltb. rewrite negb_true_iff. split; intro H.
  - apply Qnot_le_lt. intro Hle. apply Qle_bool_iff in Hle. congruence.
  - destruct (Qle_bool y x) eqn:E; [|reflexivity].
    apply Qle_bool_iff in E. exfalso. exact (Qlt_not_le _ _ H E).
Qed.

Lemma Qltb_false_iff (x y : Q) : Qltb x y = false <-> y <= x.
Proof.
  unfold Qltb. rewrite negb_false_iff. apply Qle_bool_iff.
Qed.

Lemma key_is_a_true_iff (key : option string) :
  key_is_a key = true <-> key = Some "a".
Proof.
  destruct key as [s|]; simpl.
  - rewrite String.eqb_eq. split; congruence.
  - split; discriminate.
Qed.

Lemma key_is_a_false_iff (key : option string) :
  key_is_a key = false <-> key <> Some "a".
Proof.
  rewrite <- key_is_a_true_iff. destruct (key_is_a key); split; congruence.
Qed.

(** [int(x)] lies between zero and [x], less than one away from [x]. *)
Lemma py_int_towards_zero (x : Q) :
  (0 <= x -> inject_Z (py_int x) <= x /\ x < inject_Z (py_int x) + 1) /\
  (x <= 0 -> x <= inject_Z (py_int x) /\ inject_Z (py_int x) - 1 < x).
Proof.
  destruct x as [a b]. unfold py_int, Qle, Qlt. simpl.
  pose proof (Z.quot_rem' a (Zpos b)) as Hqr.
  split; intro H.
  - assert (Ha : (0 <= a)%Z) by lia.
    pose proof (Z.rem_bound_pos a (Zpos b) Ha ltac:(lia)). lia.
  - assert (Ha : (a <= 0)%Z) by lia.
    pose proof (Z.rem_bound_pos (- a) (Zpos b) ltac:(lia) ltac:(lia)) as Hr.
    rewrite Z.rem_opp_l' in Hr. lia.
Qed.

(** The digits of [format_int n] read back as [n]. *)
Lemma parse_format_int (n : Z) : parse_int (format_int n) = Some n.
Proof.
  unfold parse_int, format_int.
  rewrite NilZero.isi.
  - simpl. now rewrite DecimalZ.of_to.
  - destruct n as [|p|p]; simpl; try discriminate.
    intros [= H]. exact (DecimalPos.Unsigned.to_uint_nonnil p H).
  - destruct n as [|p|p]; simpl; try discriminate.
    intros [= H]. exact (DecimalPos.Unsigned.to_uint_nonnil p H).
Qed.

(** ** What each call returns *)

Lemma view_update_eq (self : View.t) (o : Observables) (w : World) :
  View.update self o w =
  Ret {| View.time_text := "Time: " ++ format_int (py_int (obs_time o));
         View.done_text := "Done: " ++ format_bool (obs_done o);
         View.observed := Some o |} w.
Proof. reflexivity. Qed.

Lemma check_user_input_eq (self : Controller.t) (w : World) :
  Controller.check_user_input self w =
  Ret (Controller.set_input self (mouse w (mouse_polls w)) (keys w (key_polls w)))
      {| clock := clock w; clock_reads := clock_reads w;
         mouse := mouse w; mouse_polls := S (mouse_polls w);
         keys := keys w; key_polls := S (key_polls w);
         trace := trace w |}.
Proof. reflexivity. Qed.

(** The sleep that [Controller.update_time] asks for, if any. *)
Lemma update_time_eq (self : Controller.t) (loop_start : Q) (w : World) :
  let execute_time := clock w (clock_reads w) - loop_start in
  Controller.update_time self loop_start w =
  Ret (Controller.set_model self
         (Model.set_time (Controller.model self)
            (clock w (S (clock_reads w)) - Controller.start_time self)))
      (advance w 2 0 0
         (if Qltb execute_time (Controller.framerate self)
          then [Sleep (Controller.framerate self - execute_time)]
          else [])).
Proof.
  intro execute_time. run_M. fold execute_time.
  destruct (Qltb execute_time (Controller.framerate self)) eqn:E.
  - assert (Hpos : Qltb (Controller.framerate self - execute_time) 0 = false).
    { apply Qltb_false_iff. apply Qltb_true_iff in E. lra. }
    rewrite Hpos. reflexivity.
  - unfold advance. simpl. now rewrite app_nil_r.
Qed.

Lemma update_eq (self : Controller.t) (w : World) :
  let loop_start := clock w (clock_reads w) in
  let execute_time := clock w (S (clock_reads w)) - loop_start in
  let c := mouse w (mouse_polls w) in
  let k := keys w (key_polls w) in
  let m := snd (Model.update (Controller.model self) c k) in
  let v := {| View.time_text :=
                "Time: " ++ format_int (py_int (Model.time (Controller.model self)));
              View.done_text := "Done: " ++ format_bool (Model.done m);
              View.observed := Some (Model.observables m) |} in
  Controller.update self w =
  Ret (Model.done m,
       {| Controller.model :=
            Model.set_time m
              (clock w (S (S (clock_reads w))) - Controller.start_time self);
          Controller.view := v;
          Controller.done := Controller.done self;
          Controller.click := c;
          Controller.key := k;
          Controller.framerate := Controller.framerate self;
          Controller.start_time := Controller.start_time self |})
      (advance w 3 1 1
         (if Qltb execute_time (Controller.framerate self)
          then [Sleep (Controller.framerate self - execute_time)]
          else [])).
Proof.
  intros loop_start execute_time c k m v.
  unfold Controller.update.
  unfold bind at 1. unfold time_time at 1.
  unfold bind at 1. rewrite check_user_input_eq.
  cbv beta iota delta [Model.update Controller.set_input Controller.model
                       Controller.click Controller.key].
  unfold bind at 1. rewrite view_update_eq.
  unfold bind at 1. rewrite update_time_eq.
  subst m v c k. unfold Model.update.
  cbn [clock clock_reads mouse mouse_polls keys key_polls trace].
  destruct (key_is_a (keys w (key_polls w))); reflexivity.
Qed.

(** [Controller.update] always returns; what it leaves unchanged, and what
    it writes. *)
Lemma update_returns (self : Controller.t) (w : World) :
  exists (d : bool) (self' : Controller.t) (w' : World),
    Controller.update self w = Ret (d, self') w' /\
    d = Model.done (Controller.model self') /\
    Model.done (Controller.model self') =
      (Model.done (Controller.model self) || key_is_a (keys w (key_polls w)))%bool /\
    Model.time (Controller.model self') =
      clock w (2 + clock_reads w) - Controller.start_time self /\
    Controller.done self' = Controller.done self /\
    Controller.start_time self' = Controller.start_time self /\
    Controller.framerate self' = Controller.framerate self /\
    clock w' = clock w /\ clock_reads w' = (3 + clock_reads w)%nat /\
    mouse w' = mouse w /\ mouse_polls w' = (1 + mouse_polls w)%nat /\
    keys w' = keys w /\ key_polls w' = (1 + key_polls w)%nat.
Proof.
  pose proof (update_eq self w) as E. cbv zeta in E.
  eexists _, _, _. split; [exact E|].
  unfold Model.update.
  destruct (key_is_a (keys w (key_polls w))); cbn;
    rewrite ?orb_true_r, ?orb_false_r; repeat split; reflexivity.
Qed.

(** The loop body, [n] times, always returns. *)
Lemma iterate_returns (n : nat) :
  forall (self : Controller.t) (w : World),
  exists (self' : Controller.t) (w' : World),
    Controller.iterate n self w = Ret self' w' /\
    (Model.done (Controller.model self) = true ->
     Model.done (Controller.model self') = true) /\
    Controller.start_time self' = Controller.start_time self /\
    Controller.framerate self' = Controller.framerate self /\
    clock w' = clock w /\ clock_reads w' = (3 * n + clock_reads w)%nat /\
    mouse w' = mouse w /\ mouse_polls w' = (n + mouse_polls w)%nat /\
    keys w' = keys w /\ key_polls w' = (n + key_polls w)%nat.
Proof.
  induction n as [|n IH]; intros self w.
  - exists self, w. cbn. repeat split; auto.
  - destruct (update_returns self w)
      as (d & self1 & w1 & E & _ & Hd & _ & _ & Hs & Hf & Hc & Hr & Hm & Hmp & Hk & Hkp).
    destruct (IH (Controller.set_done self1 d) w1)
      as (self' & w' & E' & Hd' & Hs' & Hf' & Hc' & Hr' & Hm' & Hmp' & Hk' & Hkp').
    exists self', w'.
    split.
    { cbn [Controller.iterate]. unfold bind at 1. rewrite E. exact E'. }
    cbn [Controller.set_done Controller.model Controller.start_time
         Controller.framerate] in *.
    repeat split; try congruence; try lia.
    intro H. apply Hd'. rewrite Hd, H. reflexivity.
Qed.

(** ** The state transition: [Model.update] *)

(** C1: for every state and every click, [Model.update] with the key ["a"]
    returns [True] and leaves [done] true, whatever [done] was before; a
    second ["a"] leaves it true again. *)
Theorem update_key_a_sets_done (s : Model.t) (click click' : option Point) :
  Model.done (snd (Model.update s click (Some "a"))) = true /\
  fst (Model.update s click (Some "a")) = true /\
  Model.done
    (snd (Model.update (snd (Model.update s click (Some "a"))) click' (Some "a")))
  = true.
Proof.
  destruct s as [wd ht tm dn obs]. repeat split; reflexivity.
Qed.

(** C2: for every state and every input whose key is not ["a"] (no key
    included), [Model.update] leaves [done] as it was, and returns it. *)
Theorem update_other_key_keeps_done
  (s : Model.t) (click : option Point) (key : option string) :
  key <> Some "a" ->
  Model.done (snd (Model.update s click key)) = Model.done s /\
  fst (Model.update s click key) = Model.done s.
Proof.
  intro Hkey. apply key_is_a_false_iff in Hkey.
  unfold Model.update. rewrite Hkey. split; reflexivity.
Qed.

Lemma update_other_key_keeps_done_witness :
  (None <> Some "a" /\
   Model.done (snd (Model.update Model.init None None)) = false) /\
  (Some "b" <> Some "a" /\
   Model.done (snd (Model.update Model.init (Some (mkPoint 3 4)) (Some "b")))
   = false).
Proof.
  split; (split; [discriminate|]).
  - apply (update_other_key_keeps_done Model.init None None). discriminate.
  - apply (update_other_key_keeps_done
             Model.init (Some (mkPoint 3 4)) (Some "b")). discriminate.
Defined.

(** C6: the click takes no part in the transition. For every state and key,
    [Model.update] gives the same state and the same return value for any
    two clicks; and a pass of [Controller.update] in a world where the mouse
    answers otherwise returns the same [done] and differs in nothing but
    the recorded click and the mouse itself. *)
Theorem update_ignores_click
  (s : Model.t) (key : option string) (c1 c2 : option Point) :
  Model.update s c1 key = Model.update s c2 key /\
  forall (self : Controller.t) (w : World) (f : nat -> option Point) (n : nat),
  exists (d : bool) (self' : Controller.t) (w' : World),
    Controller.update self w = Ret (d, self') w' /\
    Controller.update self (with_mouse w f n) =
      Ret (d, Controller.set_input self' (f n) (Controller.key self'))
          (with_mouse w' f (S n)).
Proof.
  split; [reflexivity|].
  intros self w f n.
  pose proof (update_eq self w) as E.
  pose proof (update_eq self (with_mouse w f n)) as E'.
  cbv zeta in E, E'.
  eexists _, _, _. split; [exact E|].
  rewrite E'. reflexivity.
Qed.

(** C7: [Model.update] never writes the time, the width or the height of
    the model; neither does [Model.update_observables], and
    [Controller.check_user_input] leaves the whole model alone. Within a
    pass of [Controller.update] the time is written once, by
    [Model.set_time] on behalf of [Controller.update_time], with the
    reading of the clock less [start_time]. *)
Theorem update_keeps_time
  (s : Model.t) (click : option Point) (key : option string) :
  (Model.time (snd (Model.update s click key)) = Model.time s /\
   Model.width (snd (Model.update s click key)) = Model.width s /\
   Model.height (snd (Model.update s click key)) = Model.height s) /\
  Model.time (Model.update_observables s) = Model.time s /\
  (forall (self : Controller.t) (w : World),
   exists (self' : Controller.t) (w' : World),
     Controller.check_user_input self w = Ret self' w' /\
     Controller.model self' = Controller.model self) /\
  (forall (self : Controller.t) (loop_start : Q) (w : World),
   exists (self' : Controller.t) (w' : World),
     Controller.update_time self loop_start w = Ret self' w' /\
     Controller.model self' =
       Model.set_time (Controller.model self)
         (clock w (1 + clock_reads w) - Controller.start_time self)) /\
  (forall (self : Controller.t) (w : World),
   exists (d : bool) (self' : Controller.t) (w' : World),
     Controller.update self w = Ret (d, self') w' /\
     Controller.model self' =
       Model.set_time
         (snd (Model.update (Controller.model self)
                 (mouse w (mouse_polls w)) (keys w (key_polls w))))
         (clock w (2 + clock_reads w) - Controller.start_time self)).
Proof.
  split; [|split; [|split; [|split]]].
  - unfold Model.update. destruct (key_is_a key); repeat split; reflexivity.
  - reflexivity.
  - intros self w. rewrite check_user_input_eq. eexists _, _. split; reflexivity.
  - intros self loop_start w. pose proof (update_time_eq self loop_start w) as E.
    cbv zeta in E. rewrite E. eexists _, _. split; reflexivity.
  - intros self w. pose proof (update_eq self w) as E. cbv zeta in E.
    rewrite E. eexists _, _, _. split; reflexivity.
Qed.

(** C4: [done] is terminal. Once the model has [done] true, it is true
    after [Model.update] with any input, after [Model.set_time], after
    [Model.update_observables], after a pass of [Controller.update] (which
    then returns true) and after any number of passes. *)
Theorem done_is_terminal (m : Model.t) :
  Model.done m = true ->
  (forall (click : option Point) (key : option string),
     Model.done (snd (Model.update m click key)) = true /\
     fst (Model.update m click key) = true) /\
  (forall t : Q, Model.done (Model.set_time m t) = true) /\
  Model.done (Model.update_observables m) = true /\
  (forall (self : Controller.t) (w : World),
     Controller.model self = m ->
     exists (self' : Controller.t) (w' : World),
       Controller.update self w = Ret (true, self') w' /\
       Model.done (Controller.model self') = true) /\
  (forall (n : nat) (self : Controller.t) (w : World),
     Controller.model self = m ->
     exists (self' : Controller.t) (w' : World),
       Controller.iterate n self w = Ret self' w' /\
       Model.done (Controller.model self') = true).
Proof.
  intro Hdone. split; [|split; [|split; [|split]]].
  - intros click key. unfold Model.update.
    destruct (key_is_a key); split; cbn; auto.
  - intro t. exact Hdone.
  - exact Hdone.
  - intros self w Hm.
    destruct (update_returns self w) as (d & self' & w' & E & Hd & Hd' & _).
    rewrite Hm, Hdone in Hd'. cbn in Hd'. rewrite Hd' in Hd. subst d.
    exists self', w'. split; assumption.
  - intros n self w Hm.
    destruct (iterate_returns n self w) as (self' & w' & E & Hd & _).
    exists self', w'. split; [exact E|]. apply Hd. now rewrite Hm.
Qed.

Lemma done_is_terminal_witness :
  Model.done (snd (Model.update Model.init None (Some "a"))) = true /\
  Model.done
    (snd (Model.update (snd (Model.update Model.init None (Some "a")))
            None (Some "b"))) = true.
Proof.
  split; [reflexivity|].
  apply (done_is_terminal (snd (Model.update Model.init None (Some "a")))).
  reflexivity.
Defined.

(** ** Rendering: [View] *)

(** C9: the time label shows whole seconds. For every value [v] under
    ['time'] in the observed dict, [View.draw_time] sets the text of the
    label to ["Time: "] followed by the decimal digits of [int(v)], the
    whole number next to [v] towards zero; it touches nothing else. *)
Theorem draw_time_shows_whole_seconds
  (self : View.t) (o : Observables) (w : World) :
  View.observed self = Some o ->
  exists (self' : View.t) (n : Z),
    View.draw_time self w = Ret self' w /\
    View.time_text self' = "Time: " ++ format_int n /\
    parse_int (format_int n) = Some n /\
    n = py_int (obs_time o) /\
    (0 <= obs_time o -> inject_Z n <= obs_time o /\ obs_time o < inject_Z n + 1) /\
    (obs_time o <= 0 -> obs_time o <= inject_Z n /\ inject_Z n - 1 < obs_time o) /\
    View.done_text self' = View.done_text self /\
    View.observed self' = View.observed self.
Proof.
  intro Hobs. unfold View.draw_time. rewrite Hobs.
  eexists _, (py_int (obs_time o)).
  split; [reflexivity|].
  split; [reflexivity|].
  split; [apply parse_format_int|].
  split; [reflexivity|].
  destruct (py_int_towards_zero (obs_time o)) as [Hpos Hneg].
  repeat split; try (apply Hpos; assumption); try (apply Hneg; assumption).
Qed.

Lemma draw_time_shows_whole_seconds_witness :
  exists (self' : View.t) (n : Z),
    View.draw_time
      {| View.time_text := "Time: 0"; View.done_text := "Done: False";
         View.observed := Some {| obs_time := 7 # 2; obs_done := false |} |}
      paced_world = Ret self' paced_world /\
    View.time_text self' = "Time: 3" /\ n = 3%Z.
Proof.
  destruct (draw_time_shows_whole_seconds
              {| View.time_text := "Time: 0"; View.done_text := "Done: False";
                 View.observed := Some {| obs_time := 7 # 2; obs_done := false |} |}
              {| obs_time := 7 # 2; obs_done := false |}
              paced_world eq_refl)
    as (self' & n & E & Ht & _ & Hn & _).
  exists self', n. subst n. repeat split; assumption.
Defined.

(** ** One pass of the loop: [Controller.update] *)

Lemma started_is_reached :
  (self <- Controller.init ;; Controller.run_start self) paced_world =
  Ret started_controller started_world.
Proof. reflexivity. Qed.

(** C3, as stated, fails: on the first pass of the program in
    [paced_world] the dict handed to [View.update] has the time 0, while
    that pass measures 0.09 seconds since [start_time]. *)
Lemma render_time_counterexample :
  ~ renders_elapsed_of_same_pass started_controller started_world.
Proof.
  intros (d & self' & w' & o & E & Ho & Ht).
  pose proof (update_eq started_controller started_world) as E0.
  cbv zeta in E0. rewrite E0 in E.
  injection E as _ Hself _. subst self'.
  cbn in Ho. injection Ho as Ho. subst o.
  vm_compute in Ht. discriminate Ht.
Qed.

(** C3, amended: the dict handed to [View.update] in a pass of
    [Controller.update] carries the time that the model held when the pass
    began and the [done] of this pass; the time elapsed since [start_time]
    that this pass measures is the time that the model holds when the pass
    ends, and it is the time in the dict of the next pass. *)
Theorem update_renders_time_of_previous_pass (self : Controller.t) (w : World) :
  exists (d : bool) (self' : Controller.t) (w' : World),
    Controller.update self w = Ret (d, self') w' /\
    View.observed (Controller.view self') =
      Some {| obs_time := Model.time (Controller.model self); obs_done := d |} /\
    View.time_text (Controller.view self') =
      "Time: " ++ format_int (py_int (Model.time (Controller.model self))) /\
    Model.time (Controller.model self') =
      clock w (2 + clock_reads w) - Controller.start_time self /\
    exists (d2 : bool) (self2 : Controller.t) (w2 : World),
      Controller.update (Controller.set_done self' d) w' = Ret (d2, self2) w2 /\
      View.observed (Controller.view self2) =
        Some {| obs_time := clock w (2 + clock_reads w) - Controller.start_time self;
                obs_done := d2 |}.
Proof.
  pose proof (update_eq self w) as E. cbv zeta in E.
  eexists _, _, _. split; [exact E|].
  split; [unfold Model.update; destruct (key_is_a _); reflexivity|].
  split; [reflexivity|].
  split; [unfold Model.update; destruct (key_is_a _); reflexivity|].
  match goal with
  | |- context [Controller.update ?c ?x] =>
      pose proof (update_eq c x) as E'; cbv zeta in E'
  end.
  eexists _, _, _. split; [exact E'|].
  unfold Model.update. cbn.
  destruct (key_is_a (keys w (key_polls w)));
    destruct (key_is_a (keys w (S (key_polls w)))); reflexivity.
Qed.

(** ** Frame pacing: [Controller.update_time] *)

(** C5: [Controller.update_time] reads the clock, [loop_end], and takes
    [execute_time = loop_end - loop_start]. If that is less than the
    framerate, the one thing it does to the world is to sleep, once, for
    exactly the framerate less [execute_time]; if [execute_time] is the
    framerate or more it does not sleep and does nothing else to the world
    either. In both cases it then reads the clock once more, [back], and
    returns. It does not return before the framerate has passed since
    [loop_start]: the instant of its first reading and the time it then
    sleeps make [loop_start] plus the framerate, or more; hence [back] is
    no earlier than that, whenever the clock has advanced between the two
    readings by the time that the call slept. *)
Theorem update_time_paces (self : Controller.t) (loop_start : Q) (w : World) :
  let loop_end := clock w (clock_reads w) in
  let execute_time := loop_end - loop_start in
  let target := Controller.framerate self in
  let back := clock w (1 + clock_reads w) in
  exists (self' : Controller.t) (w' : World) (evs : list Event),
    Controller.update_time self loop_start w = Ret self' w' /\
    clock_reads w' = (2 + clock_reads w)%nat /\
    trace w' = (trace w ++ evs)%list /\
    (execute_time < target ->
       evs = [Sleep (target - execute_time)] /\ 0 < target - execute_time) /\
    (target <= execute_time -> evs = []) /\
    loop_start + target <= loop_end + slept evs /\
    (loop_end + slept evs <= back -> loop_start + target <= back).
Proof.
  intros loop_end execute_time target back.
  pose proof (update_time_eq self loop_start w) as E. cbv zeta in E.
  fold loop_end execute_time target in E.
  eexists _, _, _. split; [exact E|].
  split; [reflexivity|].
  split; [reflexivity|].
  destruct (Qltb execute_time target) eqn:Hb.
  - apply Qltb_true_iff in Hb.
    split; [intros _; split; [reflexivity | lra]|].
    split; [intro Hle; lra|].
    unfold slept. cbn [sleeps_of fold_right].
    subst execute_time. split; [|intro H]; lra.
  - apply Qltb_false_iff in Hb.
    split; [intro Hlt; lra|].
    split; [reflexivity|].
    unfold slept. cbn [sleeps_of fold_right].
    subst execute_time. split; [|intro H]; lra.
Qed.

Lemma update_time_paces_witness :
  (exists (self' : Controller.t) (w' : World) (seconds : Q),
     Controller.update_time started_controller (clock paced_world 0)
       started_world = Ret self' w' /\
     trace w' = (trace started_world ++ [Sleep seconds])%list /\
     seconds == 2 # 100 /\
     clock paced_world 0 + Controller.framerate started_controller
       <= clock paced_world 2) /\
  (exists (self' : Controller.t) (w' : World),
     Controller.update_time started_controller 50 started_world
       = Ret self' w' /\
     trace w' = trace started_world).
Proof.
  split.
  - destruct (update_time_paces started_controller (clock paced_world 0)
                started_world)
      as (self' & w' & evs & E & _ & Htrace & Hfast & _ & _ & Hback).
    destruct Hfast as (Hevs & _); [reflexivity|].
    exists self', w', (Controller.framerate started_controller
                       - (clock paced_world 1 - clock paced_world 0)).
    split; [exact E|].
    split; [rewrite Htrace, Hevs; reflexivity|].
    split; [reflexivity|].
    apply Hback. rewrite Hevs. discriminate.
  - destruct (update_time_paces started_controller 50 started_world)
      as (self' & w' & evs & E & _ & Htrace & _ & Hslow & _ & _).
    exists self', w'. split; [exact E|].
    rewrite Htrace, Hslow; [apply app_nil_r | discriminate].
Defined.

(** ** The game: [Controller.run] *)

Lemma init_eq (w : World) :
  Controller.init w =
  Ret {| Controller.model := Model.init;
         Controller.view := {| View.time_text := "Time: 0";
                               View.done_text := "Done: False";
                               View.observed := None |};
         Controller.done := false;
         Controller.click := None;
         Controller.key := None;
         Controller.framerate := 1 / 20;
         Controller.start_time := 0 |}
      (advance w 0 0 0 [OpenWindow "Asteroid" 1200 800]).
Proof. reflexivity. Qed.

Lemma run_start_eq (self : Controller.t) (w : World) :
  Controller.run_start self w =
  Ret (Controller.set_start_time self (clock w (clock_reads w)))
      (advance w 1 0 0
         [SetBackground "white";
          DrawText (View.time_text (Controller.view self));
          DrawText (View.done_text (Controller.view self));
          GetMouse]).
Proof.
  run_M. unfold advance. cbn [Nat.add]. rewrite <- !app_assoc. reflexivity.
Qed.

Lemma run_finish_eq (self : Controller.t) (w : World) :
  Controller.run_finish self w = Ret self (advance w 0 0 0 [GetMouse; Close]).
Proof.
  run_M. unfold advance. cbn [Nat.add]. rewrite <- !app_assoc. reflexivity.
Qed.

Lemma paced_clock_nondecreasing : nondecreasing (clock paced_world).
Proof.
  intros i j Hij. cbn [clock paced_world].
  assert (H : inject_Z (Z.of_nat i) <= inject_Z (Z.of_nat j)).
  { rewrite <- Zle_Qle. lia. }
  lra.
Qed.

(** C8: if the readings of the clock never go back, then in a run of the
    game, whatever the number [n] of passes of the loop body made so far,
    the time that the next pass stores in the model is not negative, and
    the time that the pass after it stores is at least as large. *)
Theorem elapsed_time_monotone (self : Controller.t) (w : World) (n : nat) :
  nondecreasing (clock w) ->
  exists (self0 : Controller.t) (w0 : World)
         (selfn : Controller.t) (wn : World)
         (d1 : bool) (self1 : Controller.t) (w1 : World)
         (d2 : bool) (self2 : Controller.t) (w2 : World),
    Controller.run_start self w = Ret self0 w0 /\
    Controller.iterate n self0 w0 = Ret selfn wn /\
    Controller.update selfn wn = Ret (d1, self1) w1 /\
    Controller.update (Controller.set_done self1 d1) w1 = Ret (d2, self2) w2 /\
    0 <= Model.time (Controller.model self1) /\
    Model.time (Controller.model self1) <= Model.time (Controller.model self2).
Proof.
  intro Hmono.
  pose proof (run_start_eq self w) as E0.
  destruct (iterate_returns n
              (Controller.set_start_time self (clock w (clock_reads w)))
              (advance w 1 0 0
                 [SetBackground "white";
                  DrawText (View.time_text (Controller.view self));
                  DrawText (View.done_text (Controller.view self));
                  GetMouse]))
    as (selfn & wn & En & _ & Hsn & _ & Hcn & Hrn & _).
  destruct (update_returns selfn wn)
    as (d1 & self1 & w1 & E1 & _ & _ & Ht1 & _ & Hs1 & _ & Hc1 & Hr1 & _).
  destruct (update_returns (Controller.set_done self1 d1) w1)
    as (d2 & self2 & w2 & E2 & _ & _ & Ht2 & _).
  exists (Controller.set_start_time self (clock w (clock_reads w))).
  eexists. exists selfn, wn, d1, self1, w1, d2, self2, w2.
  split; [exact E0|]. split; [exact En|]. split; [exact E1|].
  split; [exact E2|].
  rewrite Ht1, Ht2.
  cbn [Controller.set_done Controller.start_time Controller.set_start_time
       advance clock clock_reads] in *.
  rewrite Hs1, Hsn, Hc1, Hcn, Hr1, Hrn.
  pose proof (Hmono (clock_reads w)
                (2 + (3 * n + (1 + clock_reads w)))%nat ltac:(lia)).
  pose proof (Hmono (2 + (3 * n + (1 + clock_reads w)))%nat
                (2 + (3 + (3 * n + (1 + clock_reads w))))%nat ltac:(lia)).
  split; lra.
Qed.

Lemma elapsed_time_monotone_witness :
  nondecreasing (clock paced_world) /\
  exists (self0 : Controller.t) (w0 : World)
         (selfn : Controller.t) (wn : World)
         (d1 : bool) (self1 : Controller.t) (w1 : World)
         (d2 : bool) (self2 : Controller.t) (w2 : World),
    Controller.run_start started_controller paced_world = Ret self0 w0 /\
    Controller.iterate 1 self0 w0 = Ret selfn wn /\
    Controller.update selfn wn = Ret (d1, self1) w1 /\
    Controller.update (Controller.set_done self1 d1) w1 = Ret (d2, self2) w2 /\
    0 <= Model.time (Controller.model self1) /\
    Model.time (Controller.model self1) <= Model.time (Controller.model self2).
Proof.
  split.
  - exact paced_clock_nondecreasing.
  - exact (elapsed_time_monotone started_controller paced_world 1
             paced_clock_nondecreasing).
Defined.

(** One pass of the loop: it stops at once if [done] is set, otherwise it
    calls [Controller.update] and goes on with the result as [done]. *)
Lemma loop_S (fuel : nat) (self : Controller.t) (w : World) :
  Controller.loop (S fuel) self w =
  if Controller.done self then Ret self w
  else match Controller.update self w with
       | Ret r w' =>
           Controller.loop fuel (Controller.set_done (snd r) (fst r)) w'
       | Raise e => Raise e
       | NoFuel => NoFuel
       end.
Proof.
  cbn [Controller.loop]. destruct (Controller.done self); reflexivity.
Qed.

Lemma loop_done (fuel : nat) (self : Controller.t) (w : World) :
  Controller.done self = true -> Controller.loop fuel self w = Ret self w.
Proof.
  intro H. destruct fuel; cbn [Controller.loop]; rewrite H; reflexivity.
Qed.

Lemma loop_0 (self : Controller.t) (w : World) :
  Controller.done self = false -> Controller.loop 0 self w = NoFuel.
Proof.
  intro H. cbn [Controller.loop]. rewrite H. reflexivity.
Qed.

Lemma first_a_after_0 (w : World) :
  first_a_after w 0 -> key_is_a (keys w (key_polls w)) = true.
Proof.
  intros [H _]. apply key_is_a_true_iff. exact H.
Qed.

Lemma first_a_after_S (w w' : World) (n : nat) :
  first_a_after w (S n) ->
  keys w' = keys w -> key_polls w' = (1 + key_polls w)%nat ->
  key_is_a (keys w (key_polls w)) = false /\ first_a_after w' n.
Proof.
  intros [Ha Hnot] Hk Hp. split.
  - apply key_is_a_false_iff. apply (Hnot 0%nat). lia.
  - unfold first_a_after. rewrite Hk, Hp. split.
    + replace (n + (1 + key_polls w))%nat with (S n + key_polls w)%nat by lia.
      exact Ha.
    + intros i Hi.
      replace (i + (1 + key_polls w))%nat with (S i + key_polls w)%nat by lia.
      apply Hnot. lia.
Qed.

(** The loop, entered with [done] false in the controller and in the model,
    makes exactly [n + 1] passes when the first ["a"] is the answer of the
    poll after [n] others. *)
Lemma loop_first_a (n : nat) :
  forall (self : Controller.t) (w : World),
    Controller.done self = false ->
    Model.done (Controller.model self) = false ->
    first_a_after w n ->
    (forall fuel : nat, (fuel <= n)%nat -> Controller.loop fuel self w = NoFuel) /\
    exists (self' : Controller.t) (w' : World),
      Controller.iterate (S n) self w = Ret self' w' /\
      Controller.done self' = true /\
      Model.done (Controller.model self') = true /\
      key_polls w' = (S n + key_polls w)%nat /\
      forall fuel : nat, (n < fuel)%nat -> Controller.loop fuel self w = Ret self' w'.
Proof.
  induction n as [|n IH]; intros self w Hdone Hmdone Hfirst.
  - apply first_a_after_0 in Hfirst.
    destruct (update_returns self w)
      as (d & self1 & w1 & E & Hd & Hd1 & _ & _ & _ & _ & _ & _ & _ & _ & _ & Hkp).
    rewrite Hmdone, Hfirst in Hd1. cbn in Hd1. rewrite Hd1 in Hd. subst d.
    split.
    + intros fuel Hfuel. replace fuel with 0%nat by lia. now apply loop_0.
    + exists (Controller.set_done self1 true), w1.
      split; [cbn [Controller.iterate]; unfold bind; rewrite E; reflexivity|].
      split; [reflexivity|]. split; [exact Hd1|]. split; [exact Hkp|].
      intros [|fuel] Hfuel; [lia|].
      rewrite loop_S, Hdone, E. now apply loop_done.
  - destruct (update_returns self w)
      as (d & self1 & w1 & E & Hd & Hd1 & _ & _ & _ & _ & _ & _ & _ & _ & Hk & Hkp).
    destruct (first_a_after_S w w1 n Hfirst Hk Hkp) as [Hnot Hfirst1].
    rewrite Hmdone, Hnot in Hd1. cbn in Hd1. rewrite Hd1 in Hd. subst d.
    destruct (IH (Controller.set_done self1 false) w1 eq_refl Hd1 Hfirst1)
      as (Hshort & self' & w' & Eit & Hdone' & Hmdone' & Hkp' & Hlong).
    split.
    + intros [|fuel] Hfuel; [now apply loop_0|].
      rewrite loop_S, Hdone, E. apply Hshort. lia.
    + exists self', w'.
      split.
      { change (Controller.iterate (S (S n)) self w)
          with (bind (Controller.update self)
                  (fun r => Controller.iterate (S n)
                              (Controller.set_done (snd r) (fst r))) w).
        unfold bind at 1. rewrite E. exact Eit. }
      split; [exact Hdone'|]. split; [exact Hmdone'|].
      split; [rewrite Hkp', Hkp; lia|].
      intros [|fuel] Hfuel; [lia|].
      rewrite loop_S, Hdone, E. apply Hlong. lia.
Qed.

(** If no poll of the keyboard ever answers ["a"], the loop does not end. *)
Lemma loop_without_a (fuel : nat) :
  forall (self : Controller.t) (w : World),
    Controller.done self = false ->
    Model.done (Controller.model self) = false ->
    (forall i : nat, keys w (i + key_polls w) <> Some "a") ->
    Controller.loop fuel self w = NoFuel.
Proof.
  induction fuel as [|fuel IH]; intros self w Hdone Hmdone Hnever.
  - now apply loop_0.
  - destruct (update_returns self w)
      as (d & self1 & w1 & E & Hd & Hd1 & _ & _ & _ & _ & _ & _ & _ & _ & Hk & Hkp).
    assert (Hnot : key_is_a (keys w (key_polls w)) = false).
    { apply key_is_a_false_iff. apply (Hnever 0%nat). }
    rewrite Hmdone, Hnot in Hd1. cbn in Hd1. rewrite Hd1 in Hd. subst d.
    rewrite loop_S, Hdone, E. apply IH; [reflexivity | exact Hd1 |].
    intro i. rewrite Hk, Hkp.
    replace (i + (1 + key_polls w))%nat with (S i + key_polls w)%nat by lia.
    apply Hnever.
Qed.

(** C10: [Model.update] returns the [done] of the state it leaves; a pass
    of the loop of [Controller.run] ends the loop exactly when its
    [Controller.update] returns true; hence the game, started in a world
    where the first poll of the keyboard that answers ["a"] comes after [n]
    others, makes exactly [n + 1] passes of the loop and then finishes:
    [n] passes or fewer do not get it out of the loop. *)
Theorem run_exits_at_first_a (w : World) (n : nat) :
  first_a_after w n ->
  (forall (s : Model.t) (click : option Point) (key : option string),
     fst (Model.update s click key) = Model.done (snd (Model.update s click key))) /\
  (forall (fuel : nat) (self : Controller.t) (w0 : World)
          (d : bool) (self' : Controller.t) (w' : World),
     Controller.done self = false ->
     Controller.update self w0 = Ret (d, self') w' ->
     Controller.loop (S fuel) self w0 =
       if d then Ret (Controller.set_done self' true) w'
       else Controller.loop fuel (Controller.set_done self' false) w') /\
  (forall fuel : nat, (fuel <= n)%nat -> main fuel w = NoFuel) /\
  exists (self' : Controller.t) (w' : World),
    (forall fuel : nat, (n < fuel)%nat -> main fuel w = Ret self' w') /\
    Controller.done self' = true /\
    Model.done (Controller.model self') = true /\
    key_polls w' = (S n + key_polls w)%nat.
Proof.
  intro Hfirst.
  split; [reflexivity|].
  split.
  { intros fuel self w0 d self' w' Hdone E.
    rewrite loop_S, Hdone, E. cbn [fst snd].
    destruct d; [now apply loop_done | reflexivity]. }
  pose proof (init_eq w) as Einit.
  match type of Einit with _ = Ret ?c ?x =>
    pose proof (run_start_eq c x) as Estart;
    match type of Estart with _ = Ret ?c1 ?x1 =>
      destruct (loop_first_a n c1 x1 eq_refl eq_refl)
        as (Hshort & self' & w' & _ & Hdone' & Hmdone' & Hkp' & Hlong);
        [exact Hfirst|]
    end
  end.
  split.
  - intros fuel Hfuel. unfold main, Controller.run.
    unfold bind at 1. rewrite Einit.
    unfold bind at 1. rewrite Estart.
    unfold bind at 1. rewrite (Hshort fuel Hfuel). reflexivity.
  - eexists self', _. split; [|split; [exact Hdone'|split; [exact Hmdone'|]]].
    + intros fuel Hfuel. unfold main, Controller.run.
      unfold bind at 1. rewrite Einit.
      unfold bind at 1. rewrite Estart.
      unfold bind at 1. rewrite (Hlong fuel Hfuel).
      apply run_finish_eq.
    + cbn [advance key_polls Nat.add]. exact Hkp'.
Qed.

Lemma run_exits_at_first_a_witness :
  first_a_after paced_world 3 /\
  main 3 paced_world = NoFuel /\
  exists (self' : Controller.t) (w' : World),
    main 4 paced_world = Ret self' w' /\
    main 5 paced_world = Ret self' w' /\
    Controller.done self' = true /\
    key_polls w' = 4%nat.
Proof.
  assert (Hfirst : first_a_after paced_world 3).
  { split; [reflexivity|].
    intros [|[|[|i]]] Hi; cbn; try discriminate. lia. }
  split; [exact Hfirst|].
  destruct (run_exits_at_first_a paced_world 3 Hfirst)
    as (_ & _ & Hshort & self' & w' & Hlong & Hdone & _ & Hkp).
  split; [apply Hshort; lia|].
  exists self', w'.
  split; [apply Hlong; lia|].
  split; [apply Hlong; lia|].
  split; [exact Hdone | exact Hkp].
Defined.

(** * Further properties *)

(** ** Helper facts on truncation, the key stream and the loop body *)

Lemma py_int_monotone (x y : Q) : x <= y -> (py_int x <= py_int y)%Z.
Proof.
  intro Hxy.
  destruct (py_int_towards_zero x) as [Hxp Hxn].
  destruct (py_int_towards_zero y) as [Hyp Hyn].
  destruct (Qlt_le_dec x 0) as [Hx|Hx].
  - destruct (Hxn ltac:(lra)) as [Hx1 Hx2].
    destruct (Qlt_le_dec y 0) as [Hy|Hy].
    + destruct (Hyn ltac:(lra)) as [Hy1 Hy2].
      assert (H : inject_Z (py_int x) < inject_Z (py_int y + 1)).
      { rewrite inject_Z_plus. change (inject_Z 1) with 1. lra. }
      rewrite <- Zlt_Qlt in H. lia.
    + destruct (Hyp Hy) as [Hy1 Hy2].
      assert (H1 : inject_Z (py_int x) < inject_Z 1)
        by (change (inject_Z 1) with 1; lra).
      assert (H2 : inject_Z (-1) < inject_Z (py_int y))
        by (change (inject_Z (-1)) with (-1 # 1); lra).
      rewrite <- Zlt_Qlt in H1, H2. lia.
  - destruct (Hxp Hx) as [Hx1 Hx2].
    destruct (Hyp ltac:(lra)) as [Hy1 Hy2].
    assert (H : inject_Z (py_int x) < inject_Z (py_int y + 1)).
    { rewrite inject_Z_plus. change (inject_Z 1) with 1. lra. }
    rewrite <- Zlt_Qlt in H. lia.
Qed.

(** The loop body [S n] times is the loop body [n] times and one more pass. *)
Lemma iterate_snoc (n : nat) :
  forall (self : Controller.t) (w : World),
    Controller.iterate (S n) self w =
    match Controller.iterate n self w with
    | Ret selfn wn =>
        match Controller.update selfn wn with
        | Ret r w' => Ret (Controller.set_done (snd r) (fst r)) w'
        | Raise e => Raise e
        | NoFuel => NoFuel
        end
    | Raise e => Raise e
    | NoFuel => NoFuel
    end.
Proof.
  induction n as [|n IH]; intros self w.
  - cbn [Controller.iterate]. unfold bind, ret.
    destruct (Controller.update self w); reflexivity.
  - change (Controller.iterate (S (S n)) self w)
      with (bind (Controller.update self)
              (fun r => Controller.iterate (S n)
                          (Controller.set_done (snd r) (fst r))) w).
    change (Controller.iterate (S n) self w)
      with (bind (Controller.update self)
              (fun r => Controller.iterate n
                          (Controller.set_done (snd r) (fst r))) w).
    unfold bind.
    destruct (Controller.update self w) as [r w1| |]; try reflexivity.
    apply IH.
Qed.

(** ** The view on its own *)

(** X1: a view that has not received a dict yet cannot draw: both
    [View.draw_time] and [View.draw_done] raise [TypeError] and nothing
    changes. *)
Theorem draw_before_update_raises (self : View.t) (w : World) :
  View.observed self = None ->
  View.draw_time self w = Raise TypeError /\
  View.draw_done self w = Raise TypeError.
Proof.
  intro Hnone. unfold View.draw_time, View.draw_done. rewrite Hnone.
  split; reflexivity.
Qed.

Lemma draw_before_update_raises_witness :
  exists (v : View.t) (w : World),
    View.init 1200 800 paced_world = Ret v w /\
    View.draw_time v w = Raise TypeError /\
    View.draw_done v w = Raise TypeError.
Proof.
  eexists _, _. split; [reflexivity|].
  apply draw_before_update_raises. reflexivity.
Defined.

(** X2: [View.update] never raises and keeps no history: whatever the view
    was before, the result holds the dict received, shows its [done] as
    [True] or [False] and the whole seconds of its time, and updating once
    more with the same dict changes nothing. The world is not touched. *)
Theorem view_update_depends_on_dict_only
  (self1 self2 : View.t) (o : Observables) (w : World) :
  exists v : View.t,
    View.update self1 o w = Ret v w /\
    View.update self2 o w = Ret v w /\
    View.update v o w = Ret v w /\
    View.observed v = Some o /\
    View.done_text v = (if obs_done o then "Done: True" else "Done: False") /\
    View.time_text v = "Time: " ++ format_int (py_int (obs_time o)).
Proof.
  rewrite !view_update_eq. eexists. split; [reflexivity|].
  split; [reflexivity|]. rewrite view_update_eq.
  split; [reflexivity|]. split; [reflexivity|].
  split; [destruct (obs_done o)|]; reflexivity.
Qed.

(** ** One pass, seen from the outside *)

(** X3: after every pass of [Controller.update] the view holds the very
    dict that the model holds; the [done] in that dict, the [done] of the
    model, the value returned and the [Done] label agree; and the
    controller has stored the answers of this pass's polls of the mouse and
    of the keyboard. *)
Theorem pass_leaves_model_and_view_in_step (self : Controller.t) (w : World) :
  exists (d : bool) (self' : Controller.t) (w' : World),
    Controller.update self w = Ret (d, self') w' /\
    View.observed (Controller.view self') =
      Some (Model.observables (Controller.model self')) /\
    obs_done (Model.observables (Controller.model self')) =
      Model.done (Controller.model self') /\
    d = Model.done (Controller.model self') /\
    View.done_text (Controller.view self') = "Done: " ++ format_bool d /\
    Controller.click self' = mouse w (mouse_polls w) /\
    Controller.key self' = keys w (key_polls w).
Proof.
  pose proof (update_eq self w) as E. cbv zeta in E.
  eexists _, _, _. split; [exact E|].
  unfold Model.update.
  destruct (key_is_a (keys w (key_polls w))); repeat split; reflexivity.
Qed.

(** ** Ends of the game *)

(** X11: [Controller.run] on a controller whose [done] is already set makes
    no pass of the loop, whatever the fuel: it draws the labels, waits for
    the two clicks, closes the window and returns, having read the clock
    once (for [start_time]) and polled neither the mouse nor the keyboard;
    the model and the view are as they were. *)
Theorem run_when_already_done (fuel : nat) (self : Controller.t) (w : World) :
  Controller.done self = true ->
  exists w' : World,
    Controller.run fuel self w =
      Ret (Controller.set_start_time self (clock w (clock_reads w))) w' /\
    trace w' =
      (trace w ++ [SetBackground "white";
                   DrawText (View.time_text (Controller.view self));
                   DrawText (View.done_text (Controller.view self));
                   GetMouse; GetMouse; Close])%list /\
    clock_reads w' = (1 + clock_reads w)%nat /\
    mouse_polls w' = mouse_polls w /\
    key_polls w' = key_polls w.
Proof.
  intro Hdone. unfold Controller.run.
  unfold bind at 1. rewrite run_start_eq.
  unfold bind at 1. rewrite loop_done by exact Hdone.
  rewrite run_finish_eq. eexists. split; [reflexivity|].
  cbn [advance trace clock_reads mouse_polls key_polls Nat.add].
  rewrite <- app_assoc. repeat split; reflexivity.
Qed.

Lemma run_when_already_done_witness :
  exists w' : World,
    Controller.run 0 (Controller.set_done started_controller true) paced_world =
      Ret (Controller.set_start_time
             (Controller.set_done started_controller true)
             (clock paced_world 0)) w' /\
    key_polls w' = 0%nat.
Proof.
  destruct (run_when_already_done 0
              (Controller.set_done started_controller true) paced_world eq_refl)
    as (w' & E & _ & _ & _ & Hk).
  exists w'. split; [exact E | exact Hk].
Defined.

(** X12: the game goes on for as long as nobody presses [a]: in a world
    where no poll of the keyboard ever answers ["a"], the program does not
    come to an end, whatever the number of passes it is given. *)
Theorem main_without_a_never_ends (w : World) (fuel : nat) :
  (forall i : nat, keys w (i + key_polls w) <> Some "a") ->
  main fuel w = NoFuel.
Proof.
  intro Hnever. unfold main, Controller.run.
  unfold bind at 1. rewrite init_eq.
  unfold bind at 1. rewrite run_start_eq.
  unfold bind at 1. rewrite loop_without_a; try reflexivity.
  exact Hnever.
Qed.

Lemma main_without_a_never_ends_witness :
  (forall i : nat, keys idle_world (i + key_polls idle_world) <> Some "a") /\
  main 1000 idle_world = NoFuel.
Proof.
  assert (H : forall i : nat,
             keys idle_world (i + key_polls idle_world) <> Some "a")
    by (intro i; discriminate).
  split; [exact H|].
  exact (main_without_a_never_ends idle_world 1000 H).
Defined.

(** ** Helper facts on the passes of a game *)

Lemma pressed_a_true_iff (ks : nat -> option string) (n : nat) :
  forall from : nat,
    pressed_a ks from n = true <->
    exists i : nat, (i < n)%nat /\ ks (i + from)%nat = Some "a".
Proof.
  induction n as [|n IH]; intro from; cbn [pressed_a].
  - split; [discriminate | intros (i & Hi & _); lia].
  - rewrite orb_true_iff, key_is_a_true_iff, IH. split.
    + intros [H | (i & Hi & H)].
      * exists 0%nat. split; [lia | exact H].
      * exists (S i). split; [lia|].
        replace (S i + from)%nat with (i + S from)%nat by lia. exact H.
    + intros ([|i] & Hi & H).
      * left. exact H.
      * right. exists i. split; [lia|].
        replace (i + S from)%nat with (S i + from)%nat by lia. exact H.
Qed.

(** The program is its prelude, the loop from the entry state, and the
    end of [Controller.run]. *)
Lemma main_eq (fuel : nat) (w : World) :
  main fuel w =
  match Controller.loop fuel (loop_entry_controller w) (loop_entry_world w) with
  | Ret self' w' => Ret self' (advance w' 0 0 0 [GetMouse; Close])
  | Raise e => Raise e
  | NoFuel => NoFuel
  end.
Proof.
  unfold main, Controller.run.
  unfold bind at 1. rewrite init_eq.
  unfold bind at 1. rewrite run_start_eq.
  unfold bind at 1.
  match goal with
  | |- context [Controller.loop fuel ?c ?x] =>
      assert (Hx : x = loop_entry_world w);
      [ unfold loop_entry_world, advance, opening;
        cbn [clock clock_reads mouse mouse_polls keys key_polls trace Nat.add
             View.time_text View.done_text Controller.view];
        rewrite <- app_assoc; reflexivity
      | rewrite Hx; change c with (loop_entry_controller w) ]
  end.
  destruct (Controller.loop fuel (loop_entry_controller w) (loop_entry_world w));
    try reflexivity.
  apply run_finish_eq.
Qed.

(** The events that the passes add to the trace (which records neither
    polls nor [setText]): sleeps of positive length, one per pass at most;
    none longer than the framerate if the clock never goes back. *)
Lemma iterate_trace (n : nat) :
  forall (self : Controller.t) (w : World),
  exists (self' : Controller.t) (w' : World) (evs : list Event),
    Controller.iterate n self w = Ret self' w' /\
    trace w' = (trace w ++ evs)%list /\
    (List.length evs <= n)%nat /\
    Forall positive_sleep evs /\
    (nondecreasing (clock w) ->
     Forall (sleep_within (Controller.framerate self)) evs).
Proof.
  induction n as [|n IH]; intros self w.
  - exists self, w, []. cbn. rewrite app_nil_r. repeat split; auto.
  - pose proof (update_eq self w) as E. cbv zeta in E.
    match type of E with _ = Ret (?d, ?c) ?x =>
      destruct (IH (Controller.set_done c d) x)
        as (self' & w' & evs & E' & Ht & Hlen & Hpos & Hlim)
    end.
    cbn [advance trace clock Controller.set_done Controller.framerate] in Ht, Hlim.
    set (exec := clock w (S (clock_reads w)) - clock w (clock_reads w)) in *.
    destruct (Qltb exec (Controller.framerate self)) eqn:Hb.
    + exists self', w', (Sleep (Controller.framerate self - exec) :: evs).
      split; [cbn [Controller.iterate]; unfold bind at 1; rewrite E; exact E'|].
      split; [rewrite Ht, <- app_assoc; reflexivity|].
      split; [cbn; lia|].
      apply Qltb_true_iff in Hb.
      split.
      * constructor; [|exact Hpos]. eexists. split; [reflexivity | lra].
      * intro Hmono. constructor; [|exact (Hlim Hmono)].
        eexists. split; [reflexivity|].
        pose proof (Hmono (clock_reads w) (S (clock_reads w)) ltac:(lia)).
        subst exec. split; lra.
    + exists self', w', evs.
      split; [cbn [Controller.iterate]; unfold bind at 1; rewrite E; exact E'|].
      split; [rewrite Ht, app_nil_r; reflexivity|].
      split; [lia|]. split; assumption.
Qed.

(** The [done] of the model after the passes. *)
Lemma iterate_done (n : nat) :
  forall (self : Controller.t) (w : World),
  exists (self' : Controller.t) (w' : World),
    Controller.iterate n self w = Ret self' w' /\
    Model.done (Controller.model self') =
      (Model.done (Controller.model self)
       || pressed_a (keys w) (key_polls w) n)%bool.
Proof.
  induction n as [|n IH]; intros self w.
  - exists self, w. cbn. now rewrite orb_false_r.
  - destruct (update_returns self w)
      as (d & self1 & w1 & E & _ & Hd & _ & _ & _ & _ & _ & _ & _ & _ & Hk & Hkp).
    destruct (IH (Controller.set_done self1 d) w1) as (self' & w' & E' & Hd').
    exists self', w'.
    split; [cbn [Controller.iterate]; unfold bind at 1; rewrite E; exact E'|].
    rewrite Hd'. cbn [Controller.set_done Controller.model pressed_a].
    rewrite Hd, Hk, Hkp, orb_assoc. reflexivity.
Qed.

(** The time in the model after at least one pass. *)
Lemma iterate_time (n : nat) :
  forall (self : Controller.t) (w : World),
  exists (self' : Controller.t) (w' : World),
    Controller.iterate (S n) self w = Ret self' w' /\
    Model.time (Controller.model self') =
      clock w (3 * n + 2 + clock_reads w) - Controller.start_time self.
Proof.
  induction n as [|n IH]; intros self w;
    destruct (update_returns self w)
      as (d & self1 & w1 & E & _ & _ & Ht & _ & Hs & _ & Hc & Hr & _).
  - exists (Controller.set_done self1 d), w1.
    split; [cbn [Controller.iterate]; unfold bind, ret; rewrite E; reflexivity|].
    exact Ht.
  - destruct (IH (Controller.set_done self1 d) w1) as (self' & w' & E' & Ht').
    exists self', w'.
    split.
    { change (Controller.iterate (S (S n)) self w)
        with (bind (Controller.update self)
                (fun r => Controller.iterate (S n)
                            (Controller.set_done (snd r) (fst r))) w).
      unfold bind at 1. rewrite E. exact E'. }
    rewrite Ht'. cbn [Controller.set_done Controller.start_time].
    rewrite Hs, Hc, Hr. f_equal. f_equal. lia.
Qed.

(** The [Time] label after at least one pass shows the time that the model
    held before the last pass. *)
Lemma iterate_label (n : nat) (self : Controller.t) (w : World) :
  exists (self' : Controller.t) (w' : World) (shown : Q),
    Controller.iterate (S n) self w = Ret self' w' /\
    View.time_text (Controller.view self') =
      "Time: " ++ format_int (py_int shown) /\
    match n with
    | O => shown = Model.time (Controller.model self)
    | S m =>
        shown = clock w (3 * m + 2 + clock_reads w) - Controller.start_time self
    end.
Proof.
  rewrite iterate_snoc. destruct n as [|m].
  - cbn [Controller.iterate]. unfold ret.
    pose proof (update_eq self w) as E. cbv zeta in E. rewrite E.
    eexists _, _, _. split; [reflexivity|]. split; reflexivity.
  - destruct (iterate_time m self w) as (selfn & wn & En & Ht).
    rewrite En.
    pose proof (update_eq selfn wn) as E. cbv zeta in E. rewrite E.
    eexists _, _, _. split; [reflexivity|].
    split; [reflexivity | exact Ht].
Qed.

(** ** Any number of passes *)

(** X4: the model is done after [n] passes exactly when it was done before
    them or one of the [n] polls of the keyboard made in them answered
    ["a"]; the order and the number of the other keys do not matter. *)
Theorem done_after_passes (n : nat) (self : Controller.t) (w : World) :
  exists (self' : Controller.t) (w' : World),
    Controller.iterate n self w = Ret self' w' /\
    (Model.done (Controller.model self') = true <->
     Model.done (Controller.model self) = true \/
     exists i : nat, (i < n)%nat /\ keys w (i + key_polls w) = Some "a").
Proof.
  destruct (iterate_done n self w) as (self' & w' & E & Hd).
  exists self', w'. split; [exact E|].
  rewrite Hd, orb_true_iff, pressed_a_true_iff. reflexivity.
Qed.

(** X5: [n] passes read the clock [3 n] times and poll the mouse and the
    keyboard [n] times each, no more and no less; they leave the
    framerate, [start_time] and the size of the playing field as they
    were. *)
Theorem passes_account (n : nat) :
  forall (self : Controller.t) (w : World),
  exists (self' : Controller.t) (w' : World),
    Controller.iterate n self w = Ret self' w' /\
    clock_reads w' = (3 * n + clock_reads w)%nat /\
    mouse_polls w' = (n + mouse_polls w)%nat /\
    key_polls w' = (n + key_polls w)%nat /\
    Controller.framerate self' = Controller.framerate self /\
    Controller.start_time self' = Controller.start_time self /\
    Model.width (Controller.model self') = Model.width (Controller.model self) /\
    Model.height (Controller.model self') = Model.height (Controller.model self).
Proof.
  induction n as [|n IH]; intros self w.
  - exists self, w. repeat split; reflexivity.
  - pose proof (update_eq self w) as E. cbv zeta in E.
    match type of E with _ = Ret (?d, ?c) ?x =>
      destruct (IH (Controller.set_done c d) x)
        as (self' & w' & E' & Hr & Hm & Hk & Hf & Hs & Hwd & Hht)
    end.
    exists self', w'.
    split; [cbn [Controller.iterate]; unfold bind at 1; rewrite E; exact E'|].
    cbn [advance clock_reads mouse_polls key_polls] in Hr, Hm, Hk.
    split; [lia|]. split; [lia|]. split; [lia|].
    split; [exact Hf|]. split; [exact Hs|].
    rewrite Hwd, Hht. unfold Model.update.
    destruct (key_is_a (keys w (key_polls w))); split; reflexivity.
Qed.

Lemma new_events_app (w w' : World) (evs : list Event) :
  trace w' = (trace w ++ evs)%list -> new_events w w' = evs.
Proof.
  intro H. unfold new_events. rewrite H, skipn_app, skipn_all, Nat.sub_diag.
  reflexivity.
Qed.

Lemma sleeps_of_within (limit : Q) (evs : list Event) :
  Forall (sleep_within limit) evs ->
  List.length (sleeps_of evs) = List.length evs /\
  Forall (fun seconds : Q => 0 < seconds /\ seconds <= limit) (sleeps_of evs).
Proof.
  induction 1 as [|e evs (seconds & -> & Hpos & Hle) _ [IHlen IHall]].
  - split; [reflexivity | constructor].
  - cbn [sleeps_of List.length]. split; [now rewrite IHlen|].
    constructor; [split; assumption | exact IHall].
Qed.

Lemma sleeps_of_positive (evs : list Event) :
  Forall positive_sleep evs ->
  List.length (sleeps_of evs) = List.length evs /\
  Forall (fun seconds : Q => 0 < seconds) (sleeps_of evs).
Proof.
  induction 1 as [|e evs (seconds & -> & Hpos) _ [IHlen IHall]].
  - split; [reflexivity | constructor].
  - cbn [sleeps_of List.length]. split; [now rewrite IHlen|].
    constructor; assumption.
Qed.

(** X6: the sleeps of [n] passes. If the readings of the clock never go
    back, there are [n] sleeps at most among the events that [n] passes
    add to the trace, and each of them has a positive length that is no
    more than the framerate. *)
Theorem sleeps_within_framerate (n : nat) (self : Controller.t) (w : World) :
  nondecreasing (clock w) ->
  exists (self' : Controller.t) (w' : World),
    Controller.iterate n self w = Ret self' w' /\
    (List.length (sleeps_of (new_events w w')) <= n)%nat /\
    Forall (fun seconds : Q =>
              0 < seconds /\ seconds <= Controller.framerate self)
           (sleeps_of (new_events w w')).
Proof.
  intro Hmono.
  destruct (iterate_trace n self w) as (self' & w' & evs & E & Ht & Hlen & _ & Hlim).
  exists self', w'. split; [exact E|].
  rewrite (new_events_app w w' evs Ht).
  destruct (sleeps_of_within _ evs (Hlim Hmono)) as [Hl Hall].
  split; [lia | exact Hall].
Qed.

Lemma sleeps_within_framerate_witness :
  nondecreasing (clock paced_world) /\
  exists (self' : Controller.t) (w' : World),
    Controller.iterate 2 started_controller started_world = Ret self' w' /\
    (List.length (sleeps_of (new_events started_world w')) <= 2)%nat /\
    Forall (fun seconds : Q =>
              0 < seconds /\ seconds <= Controller.framerate started_controller)
           (sleeps_of (new_events started_world w')).
Proof.
  split.
  - exact paced_clock_nondecreasing.
  - exact (sleeps_within_framerate 2 started_controller started_world
             paced_clock_nondecreasing).
Defined.

(** ** Pacing over a game *)

(** X7: the framerate caps the speed of the loop. If the readings of the
    clock never go back and the clock keeps up with the sleeps of [n]
    passes (in each pass it advances, while [Controller.update_time] runs,
    by the time that the pass slept, or by more), then the pass that comes
    after them starts at least [n] times the framerate later than the
    first of them did. *)
Theorem passes_take_time (n : nat) :
  forall (self : Controller.t) (w : World),
    nondecreasing (clock w) ->
    clock_keeps_up n self w ->
    exists (self' : Controller.t) (w' : World),
      Controller.iterate n self w = Ret self' w' /\
      clock w (clock_reads w) + inject_Z (Z.of_nat n) * Controller.framerate self
        <= clock w' (clock_reads w').
Proof.
  induction n as [|n IH]; intros self w Hmono Hkeeps.
  - exists self, w. split; [reflexivity|].
    change (inject_Z (Z.of_nat 0)) with 0. lra.
  - cbn [clock_keeps_up] in Hkeeps.
    pose proof (update_eq self w) as E. cbv zeta in E.
    rewrite E in Hkeeps. destruct Hkeeps as [Hpass Hrest].
    match type of Hpass with
    | context [new_events w (advance w 3 1 1 ?evs)] =>
        rewrite (new_events_app w (advance w 3 1 1 evs) evs eq_refl) in Hpass
    end.
    cbn [fst snd] in Hrest.
    match type of E with _ = Ret (?d, ?c) ?x =>
      destruct (IH (Controller.set_done c d) x Hmono Hrest)
        as (self' & w' & E' & Hlater)
    end.
    exists self', w'.
    split; [cbn [Controller.iterate]; unfold bind at 1; rewrite E; exact E'|].
    cbn [advance clock clock_reads Controller.set_done Controller.framerate]
      in Hlater.
    pose proof (Hmono (2 + clock_reads w)%nat (3 + clock_reads w)%nat
                  ltac:(lia)) as H23.
    rewrite Nat2Z.inj_succ. unfold Z.succ. rewrite inject_Z_plus.
    change (inject_Z 1) with 1.
    set (F := Controller.framerate self) in *.
    set (exec := clock w (S (clock_reads w)) - clock w (clock_reads w)) in *.
    unfold slept in Hpass.
    destruct (Qltb exec F) eqn:Hb; cbn [sleeps_of fold_right] in Hpass.
    + subst exec. cbn [Nat.add] in *. lra.
    + apply Qltb_false_iff in Hb. subst exec. cbn [Nat.add] in *. lra.
Qed.

Lemma paced_clock_keeps_up :
  clock_keeps_up 4 started_controller started_world.
Proof.
  vm_compute. repeat split; discriminate.
Qed.

Lemma passes_take_time_witness :
  exists (self' : Controller.t) (w' : World),
    Controller.iterate 4 started_controller started_world = Ret self' w' /\
    clock paced_world 1 + 4 * (1 # 20) <= clock w' (clock_reads w').
Proof.
  destruct (passes_take_time 4 started_controller started_world
              paced_clock_nondecreasing paced_clock_keeps_up)
    as (self' & w' & E & H).
  exists self', w'. split; [exact E | exact H].
Defined.

(** X8: the seconds on the [Time] label never go back. In a game started
    with the time of the model at zero, if the readings of the clock never
    go back, the label after any pass shows a whole number that is not
    negative, and the label after the next pass shows one at least as
    large. *)
Theorem time_label_never_goes_back (n : nat) (self : Controller.t) (w : World) :
  nondecreasing (clock w) ->
  Model.time (Controller.model self) == 0 ->
  exists (self0 : Controller.t) (w0 : World)
         (self1 : Controller.t) (w1 : World)
         (self2 : Controller.t) (w2 : World) (a b : Z),
    Controller.run_start self w = Ret self0 w0 /\
    Controller.iterate (S n) self0 w0 = Ret self1 w1 /\
    Controller.iterate (S (S n)) self0 w0 = Ret self2 w2 /\
    View.time_text (Controller.view self1) = "Time: " ++ format_int a /\
    View.time_text (Controller.view self2) = "Time: " ++ format_int b /\
    (0 <= a <= b)%Z.
Proof.
  intros Hmono Hzero.
  pose proof (run_start_eq self w) as E0.
  match type of E0 with _ = Ret ?c ?x =>
    destruct (iterate_label n c x) as (self1 & w1 & t1 & E1 & Hl1 & Ht1);
    destruct (iterate_label (S n) c x) as (self2 & w2 & t2 & E2 & Hl2 & Ht2)
  end.
  cbn [advance clock clock_reads Controller.set_start_time
       Controller.start_time Controller.model] in Ht1, Ht2.
  eexists _, _, self1, w1, self2, w2, (py_int t1), (py_int t2).
  split; [exact E0|]. split; [exact E1|]. split; [exact E2|].
  split; [exact Hl1|]. split; [exact Hl2|].
  assert (Hpos : 0 <= t1 /\ t1 <= t2).
  { subst t2. destruct n as [|m]; subst t1.
    - pose proof (Hmono (clock_reads w)
                    (3 * 0 + 2 + (1 + clock_reads w))%nat ltac:(lia)).
      split; lra.
    - pose proof (Hmono (clock_reads w)
                    (3 * m + 2 + (1 + clock_reads w))%nat ltac:(lia)).
      pose proof (Hmono (3 * m + 2 + (1 + clock_reads w))%nat
                    (3 * S m + 2 + (1 + clock_reads w))%nat ltac:(lia)).
      split; lra. }
  destruct Hpos as [Hpos Hle].
  split.
  - change 0%Z with (py_int 0). now apply py_int_monotone.
  - now apply py_int_monotone.
Qed.

Lemma time_label_never_goes_back_witness :
  exists (self1 self2 : Controller.t) (w1 w2 : World) (a b : Z),
    Controller.iterate 3 started_controller started_world = Ret self1 w1 /\
    Controller.iterate 4 started_controller started_world = Ret self2 w2 /\
    View.time_text (Controller.view self1) = "Time: " ++ format_int a /\
    View.time_text (Controller.view self2) = "Time: " ++ format_int b /\
    (0 <= a <= b)%Z.
Proof.
  destruct (time_label_never_goes_back 2 fresh_controller
              (advance paced_world 0 0 0 [OpenWindow "Asteroid" 1200 800])
              paced_clock_nondecreasing ltac:(reflexivity))
    as (self0 & w0 & self1 & w1 & self2 & w2 & a & b
        & E0 & E1 & E2 & Ha & Hb & Hab).
  injection E0 as <- <-.
  exists self1, self2, w1, w2, a, b.
  repeat split; try assumption; apply Hab.
Defined.

(** ** The whole game *)

(** X9: the window over a game. When the first ["a"] is the answer of the
    poll after [n] others, the trace of the program is: the window opened,
    its background set, the two labels drawn with their first texts and
    the wait for a click; then the events of the passes; then the wait for
    one more click and the window closed, as the very last thing. Among
    the events of the passes there is no wait for a click, no closing and
    no opening of a window, and there are [n + 1] sleeps at most, each of
    a positive length. *)
Theorem main_trace (w : World) (n fuel : nat) :
  first_a_after w n ->
  (n < fuel)%nat ->
  exists (self' : Controller.t) (w' : World) (during : list Event),
    main fuel w = Ret self' w' /\
    trace w' = (trace w ++ opening ++ during ++ [GetMouse; Close])%list /\
    ~ In Close during /\
    ~ In GetMouse during /\
    (forall (title : string) (width height : Z),
       ~ In (OpenWindow title width height) during) /\
    (List.length (sleeps_of during) <= S n)%nat /\
    Forall (fun seconds : Q => 0 < seconds) (sleeps_of during).
Proof.
  intros Hfirst Hfuel.
  destruct (loop_first_a n (loop_entry_controller w) (loop_entry_world w)
              eq_refl eq_refl Hfirst)
    as (_ & self' & w' & Eit & _ & _ & _ & Hlong).
  destruct (iterate_trace (S n) (loop_entry_controller w) (loop_entry_world w))
    as (self'' & w'' & evs & Eit' & Ht & Hlen & Hpos & _).
  rewrite Eit in Eit'. injection Eit' as <- <-.
  exists self', (advance w' 0 0 0 [GetMouse; Close]), evs.
  split; [rewrite main_eq, (Hlong fuel Hfuel); reflexivity|].
  split.
  { cbn [advance trace]. rewrite Ht. cbn [loop_entry_world advance trace].
    now rewrite <- !app_assoc. }
  assert (Hsleep : forall e : Event, In e evs -> exists s : Q, e = Sleep s).
  { intros e He. rewrite Forall_forall in Hpos.
    destruct (Hpos e He) as (s & -> & _). now exists s. }
  split; [intro H; destruct (Hsleep _ H) as (s & Hs); discriminate|].
  split; [intro H; destruct (Hsleep _ H) as (s & Hs); discriminate|].
  split; [intros t a b H; destruct (Hsleep _ H) as (s & Hs); discriminate|].
  destruct (sleeps_of_positive evs Hpos) as [Hl Hall].
  split; [lia | exact Hall].
Qed.

Lemma main_trace_witness :
  exists (self' : Controller.t) (w' : World) (during : list Event),
    main 10 paced_world = Ret self' w' /\
    trace w' = (trace paced_world ++ opening ++ during ++ [GetMouse; Close])%list /\
    ~ In Close during /\
    ~ In GetMouse during /\
    (forall (title : string) (width height : Z),
       ~ In (OpenWindow title width height) during) /\
    (List.length (sleeps_of during) <= 4)%nat /\
    Forall (fun seconds : Q => 0 < seconds) (sleeps_of during).
Proof.
  apply (main_trace paced_world 3 10).
  - split; [reflexivity|].
    intros [|[|[|i]]] Hi; cbn; try discriminate. lia.
  - lia.
Defined.

(** X10: how the game ends. When the first ["a"] is the answer of the poll
    after [n] others, the program returns with [done] set in the
    controller and in the model, the [Done] label showing [True], ["a"] as
    the last key stored, and the view holding the dict of the model. *)
Theorem game_ends_showing_done (w : World) (n fuel : nat) :
  first_a_after w n ->
  (n < fuel)%nat ->
  exists (self' : Controller.t) (w' : World),
    main fuel w = Ret self' w' /\
    Controller.done self' = true /\
    Model.done (Controller.model self') = true /\
    View.done_text (Controller.view self') = "Done: True" /\
    Controller.key self' = Some "a" /\
    View.observed (Controller.view self') =
      Some (Model.observables (Controller.model self')).
Proof.
  intros Hfirst Hfuel.
  destruct (loop_first_a n (loop_entry_controller w) (loop_entry_world w)
              eq_refl eq_refl Hfirst)
    as (_ & self' & w' & Eit & Hdone & Hmdone & _ & Hlong).
  exists self', (advance w' 0 0 0 [GetMouse; Close]).
  split; [rewrite main_eq, (Hlong fuel Hfuel); reflexivity|].
  split; [exact Hdone|]. split; [exact Hmdone|].
  rewrite iterate_snoc in Eit.
  destruct (iterate_returns n (loop_entry_controller w) (loop_entry_world w))
    as (selfn & wn & En & _ & _ & _ & _ & _ & _ & _ & Hk & Hkp).
  rewrite En in Eit.
  pose proof (update_eq selfn wn) as E. cbv zeta in E. rewrite E in Eit.
  injection Eit as <- _.
  cbn [fst snd Controller.set_done Controller.model Controller.view
       Controller.key View.done_text View.observed] in *.
  split; [|split].
  - unfold Model.update in *.
    destruct (key_is_a (keys wn (key_polls wn)));
      cbn in Hmdone |- *; [reflexivity | rewrite Hmdone; reflexivity].
  - rewrite Hk, Hkp. destruct Hfirst as [Ha _]. exact Ha.
  - reflexivity.
Qed.

Lemma game_ends_showing_done_witness :
  exists (self' : Controller.t) (w' : World),
    main 4 paced_world = Ret self' w' /\
    Controller.done self' = true /\
    Model.done (Controller.model self') = true /\
    View.done_text (Controller.view self') = "Done: True" /\
    Controller.key self' = Some "a" /\
    View.observed (Controller.view self') =
      Some (Model.observables (Controller.model self')).
Proof.
  apply (game_ends_showing_done paced_world 3 4).
  - split; [reflexivity|].
    intros [|[|[|i]]] Hi; cbn; try discriminate. lia.
  - lia.
Defined.
